(** * netcheck probes: a shallow embedding of the three check scripts

    The repository holds three one-shot command line probes,
    [scripts/example_ping.py], [scripts/http_check.py] and
    [scripts/tcp_port_check.py].  Each one reads [sys.argv], makes at most
    one call into the network (through [subprocess], [urllib] or [socket]),
    prints at most one diagnostic and leaves through [sys.exit].

    The embedding keeps that shape.  A probe is a computation in a small
    monad [M] that records the observable events it causes and finishes
    either normally or abruptly, by [SystemExit] or by a raised exception.
    What the outside world answers to the single library call is an input
    of the model (the record [world]), so a statement quantified over every
    [world] covers every outcome of the network operation. *)

From Stdlib Require Import ZArith List String Ascii Bool Lia DecimalString DecimalPos.
Import ListNotations.

Open Scope string_scope.
Open Scope Z_scope.

(** ** Python built-ins used by the scripts *)

Module Py.

(** A Python [str] is represented by its UTF-8 encoding: a [string] here
    is the sequence of bytes that encodes the text, and a byte of [argv]
    that decodes to nothing stands for itself (the interpreter hands it
    to the script as a lone surrogate).  Membership of [":"], splitting at
    [":"], prefix tests against ASCII text and concatenation act on the
    encoding exactly as they act on the text, since no byte of a
    multi-byte character is an ASCII byte. *)

(** [c in s] for a one-character [c]. *)
Fixpoint char_in (c : ascii) (s : string) : bool :=
  match s with
  | EmptyString => false
  | String d r => if Ascii.eqb d c then true else char_in c r
  end.

(** [s.startswith(p)]. *)
Fixpoint startswith (p s : string) : bool :=
  match p, s with
  | EmptyString, _ => true
  | String a p', String b s' => if Ascii.eqb a b then startswith p' s' else false
  | String _ _, EmptyString => false
  end.

(** The cut at the last occurrence of [sep], when there is one. *)
Fixpoint split_last (sep : ascii) (s : string) : option (string * string) :=
  match s with
  | EmptyString => None
  | String c r =>
      match split_last sep r with
      | Some (h, t) => Some (String c h, t)
      | None => if Ascii.eqb c sep then Some (EmptyString, r) else None
      end
  end.

(** [s.rsplit(sep, 1)]: at most one split, taken from the right. *)
Definition rsplit1 (sep : ascii) (s : string) : list string :=
  match split_last sep s with
  | Some (h, t) => [h; t]
  | None => [s]
  end.

(** [str.lower] on ASCII letters.  The scripts only compare a lowered
    text with ASCII text; no character outside ASCII lowers to a text
    made of ASCII letters other than ["k"] (the Kelvin sign), so such
    comparisons are decided by the ASCII letters alone. *)
Definition lower_char (c : ascii) : ascii :=
  let n := nat_of_ascii c in
  if ((65 <=? n) && (n <=? 90))%nat then ascii_of_nat (n + 32) else c.

Fixpoint lower (s : string) : string :=
  match s with
  | EmptyString => EmptyString
  | String c r => String (lower_char c) (lower r)
  end.

(** [str(n)] for an integer: its decimal numeral, with a leading minus
    sign when negative. *)
Definition str (n : Z) : string := NilZero.string_of_int (Z.to_int n).

(** *** [int(s)]

    [int] on a [str] works in two steps.  The text is first brought to
    ASCII ([_PyUnicode_TransformDecimalAndSpaceToASCII]): an ASCII text is
    taken as it is; in any other text a character below 127 is kept, a
    Unicode blank becomes a space, a Unicode decimal digit becomes its
    ASCII digit, and the first character that is none of these becomes a
    question mark that ends the text.  The result is then read in base 10
    ([PyLong_FromString]) as [ws* [+-]? D (_? D)* ws*], where [ws] is one
    of the six C-locale blanks and [D] an ASCII digit; anything else is a
    [ValueError].  The interpreter also caps the number of digits it
    converts once there are more than 640 of them
    ([sys.set_int_max_str_digits], 0 switching the cap off); the cap is a
    parameter here. *)

Definition code (c : ascii) : N := N_of_ascii c.

Fixpoint is_ascii (s : string) : bool :=
  match s with
  | EmptyString => true
  | String c r => (code c <? 128)%N && is_ascii r
  end.

(** [str.isspace] for one character outside ASCII (Unicode 14). *)
Definition unicode_isspace (cp : N) : bool :=
  ((cp =? 133) || (cp =? 160) || (cp =? 5760)
   || ((8192 <=? cp) && (cp <=? 8202))
   || (cp =? 8232) || (cp =? 8233) || (cp =? 8239) || (cp =? 8287)
   || (cp =? 12288))%N.

(** The characters of value 0 of the decimal digit scripts outside ASCII
    (Unicode 14); the digits 1 to 9 of each script follow its zero. *)
Definition decimal_zeros : list N :=
  [1632; 1776; 1984; 2406; 2534; 2662; 2790; 2918; 3046; 3174; 3302; 3430;
   3558; 3664; 3792; 3872; 4160; 4240; 6112; 6160; 6470; 6608; 6784; 6800;
   6992; 7088; 7232; 7248; 42528; 43216; 43264; 43472; 43504; 43600; 44016;
   65296; 66720; 68912; 69734; 69872; 69942; 70096; 70384; 70736; 70864;
   71248; 71360; 71472; 71904; 72016; 72784; 73040; 73120; 92768; 92864;
   93008; 120782; 120792; 120802; 120812; 120822; 123200; 123632; 125264;
   130032]%N.

(** [unicodedata.decimal] for one character outside ASCII. *)
Definition unicode_decimal (cp : N) : option N :=
  match find (fun z => (z <=? cp) && (cp <? z + 10))%N decimal_zeros with
  | Some z => Some (cp - z)%N
  | None => None
  end.

(** A continuation byte of a multi-byte character, and its six bits. *)
Definition is_cont (c : ascii) : bool := ((128 <=? code c) && (code c <=? 191))%N.
Definition cont_bits (c : ascii) : N := (code c - 128)%N.

(** What one character outside ASCII becomes, [k] being what follows it. *)
Definition to_ascii_char (cp : N) (k : string) : string :=
  if unicode_isspace cp then String " " k
  else
    match unicode_decimal cp with
    | Some d => String (ascii_of_N (48 + d)) k
    | None => "?"
    end.

(** The first step on a text that is not ASCII.  A lead byte announces
    one, two or three continuation bytes; a sequence that is too short,
    over-long, a surrogate or beyond U+10FFFF decodes to nothing. *)
Fixpoint decimal_and_space_to_ascii (s : string) : string :=
  match s with
  | EmptyString => EmptyString
  | String b0 r0 =>
      let n0 := code b0 in
      if (n0 <? 127)%N then String b0 (decimal_and_space_to_ascii r0)
      else if ((194 <=? n0) && (n0 <=? 223))%N then
        match r0 with
        | String b1 r1 =>
            if is_cont b1
            then to_ascii_char ((n0 - 192) * 64 + cont_bits b1)
                   (decimal_and_space_to_ascii r1)
            else "?"
        | EmptyString => "?"
        end
      else if ((224 <=? n0) && (n0 <=? 239))%N then
        match r0 with
        | String b1 (String b2 r2) =>
            let cp := ((n0 - 224) * 4096 + cont_bits b1 * 64 + cont_bits b2)%N in
            if is_cont b1 && is_cont b2 && (2048 <=? cp)%N
               && negb ((55296 <=? cp) && (cp <=? 57343))%N
            then to_ascii_char cp (decimal_and_space_to_ascii r2)
            else "?"
        | _ => "?"
        end
      else if ((240 <=? n0) && (n0 <=? 244))%N then
        match r0 with
        | String b1 (String b2 (String b3 r3)) =>
            let cp := ((n0 - 240) * 262144 + cont_bits b1 * 4096
                       + cont_bits b2 * 64 + cont_bits b3)%N in
            if is_cont b1 && is_cont b2 && is_cont b3
               && (65536 <=? cp)%N && (cp <=? 1114111)%N
            then to_ascii_char cp (decimal_and_space_to_ascii r3)
            else "?"
        | _ => "?"
        end
      else "?"
  end.

Definition is_space (c : ascii) : bool :=
  let n := nat_of_ascii c in
  ((n =? 32) || ((9 <=? n) && (n <=? 13)))%nat.

Definition digit_value (c : ascii) : option Z :=
  let n := nat_of_ascii c in
  if ((48 <=? n) && (n <=? 57))%nat then Some (Z.of_nat (n - 48)) else None.

Fixpoint lstrip (s : string) : string :=
  match s with
  | String c r => if is_space c then lstrip r else s
  | EmptyString => EmptyString
  end.

Fixpoint all_space (s : string) : bool :=
  match s with
  | EmptyString => true
  | String c r => is_space c && all_space r
  end.

(** Scan of the longest run of digits and underscores.  [prev_us] says
    that the previous character was an underscore; the result is the
    value read, the number of digits and the unread rest. *)
Fixpoint scan_digits (s : string) (prev_us : bool) (acc : Z) (digits : nat)
  : option (Z * nat * string) :=
  match s with
  | EmptyString => if prev_us then None else Some (acc, digits, s)
  | String c r =>
      match digit_value c with
      | Some d => scan_digits r false (acc * 10 + d) (S digits)
      | None =>
          if Ascii.eqb c "_" then
            if prev_us then None else scan_digits r true acc digits
          else if prev_us then None else Some (acc, digits, s)
      end
  end.

(** The second step: an ASCII buffer read in base 10. *)
Definition long_from_string (max_str_digits : nat) (s : string) : option Z :=
  let s := lstrip s in
  let '(sign, s) :=
    match s with
    | String "+" r => (1, r)
    | String "-" r => (-1, r)
    | _ => (1, s)
    end in
  match s with
  | String "_" _ => None
  | _ =>
      match scan_digits s false 0 0 with
      | Some (v, digits, rest) =>
          if (digits =? 0)%nat then None
          else if negb (all_space rest) then None
          else if ((640 <? digits) && ((0 <? max_str_digits) && (max_str_digits <? digits)))%nat
               then None
          else Some (sign * v)
      | None => None
      end
  end.

Definition parse_int (max_str_digits : nat) (s : string) : option Z :=
  long_from_string max_str_digits
    (if is_ascii s then s else decimal_and_space_to_ascii s).

(** A text given by the bytes of its encoding. *)
Definition utf8 (bytes : list Z) : string :=
  fold_right (fun n s => String (ascii_of_N (Z.to_N n)) s) EmptyString bytes.

End Py.

(** ** Exceptions, events and the probe monad *)

(** The exception classes the scripts name in their handlers, each with the
    data its handler reads.  [timeout] is [socket.timeout], which is the
    built-in [TimeoutError]; [OtherException] stands for every further
    instance of [Exception] ([OSError], [OverflowError], ...), carrying
    its [str]. *)
Inductive exn : Type :=
| ValueError (msg : string)
| IndexError (msg : string)
| gaierror (msg : string)
| timeout (msg : string)
| HTTPError (code : Z) (reason : string)
| URLError (reason : string)
| TimeoutExpired (msg : string)
| OtherException (msg : string).

(** [str(e)]. *)
Definition exn_str (e : exn) : string :=
  match e with
  | ValueError m | IndexError m | gaierror m | timeout m
  | TimeoutExpired m | OtherException m => m
  | HTTPError c r => "HTTP Error " ++ Py.str c ++ ": " ++ r
  | URLError r => "<urlopen error " ++ r ++ ">"
  end.

Inductive stream : Type := stdout | stderr.

(** What a run does that can be seen from outside the process. *)
Inductive event : Type :=
| Print (f : stream) (text : string)           (* print(text, file=f) *)
| SubprocessRun (cmd : list string) (secs : Z) (* subprocess.run(cmd, capture_output=True, timeout=secs) *)
| UrlOpen (url : string) (secs : Z)            (* urllib.request.urlopen(url, timeout=secs) *)
| ResponseClose                                (* the response leaves its with block *)
| SocketNew                                    (* socket.socket(AF_INET, SOCK_STREAM) *)
| SetTimeout (secs : Z)                        (* sock.settimeout(secs) *)
| ConnectEx (host : string) (port : Z)         (* sock.connect_ex((host, port)) *)
| SockClose.                                   (* sock.close() *)

(** Abrupt completion: [sys.exit] raises [SystemExit], which is not an
    [Exception] and so passes through every [except Exception]. *)
Inductive abrupt : Type :=
| SystemExit (code : Z)
| Raised (e : exn).

Inductive completion (A : Type) : Type :=
| Normal (a : A)
| Abrupt (s : abrupt).
Arguments Normal {A} a.
Arguments Abrupt {A} s.

(** What a library call answers. *)
Inductive answer (A : Type) : Type :=
| Returns (a : A)
| Raises (e : exn).
Arguments Returns {A} a.
Arguments Raises {A} e.

Record response : Type := { getcode : Z }.
Record CompletedProcess : Type := { returncode : Z }.

(** Everything outside the process that a probe consults. *)
Record world : Type := {
  int_max_str_digits : nat;                 (* the interpreter's digit cap, 0 for none *)
  platform_system : string;                 (* platform.system() *)
  subprocess_run : answer CompletedProcess; (* outcome of the ping child *)
  urlopen : answer response;                (* outcome of the GET request *)
  socket_socket : answer unit;              (* outcome of creating the socket *)
  connect_ex : answer Z                     (* outcome of the connect *)
}.

Module Eff.

Definition M (A : Type) : Type := (list event * completion A)%type.

Definition ret {A} (a : A) : M A := ([], Normal a).

Definition bind {A B} (m : M A) (k : A -> M B) : M B :=
  match snd m with
  | Normal a => ((fst m ++ fst (k a))%list, snd (k a))
  | Abrupt s => (fst m, Abrupt s)
  end.

Definition emit (e : event) : M unit := ([e], Normal tt).

Definition raise {A} (e : exn) : M A := ([], Abrupt (Raised e)).

Definition sys_exit {A} (code : Z) : M A := ([], Abrupt (SystemExit code)).

(** A library call: the event is logged, then the world answers. *)
Definition call {A} (e : event) (a : answer A) : M A :=
  ([e], match a with Returns v => Normal v | Raises x => Abrupt (Raised x) end).

(** [try: m  except ...: handler]; the handler re-raises what it does
    not match. *)
Definition try_except {A} (m : M A) (handler : exn -> M A) : M A :=
  match snd m with
  | Abrupt (Raised e) => ((fst m ++ fst (handler e))%list, snd (handler e))
  | _ => m
  end.

(** [with acquire as x: body x]: [release] runs however the body ends. *)
Definition with_as {A B} (acquire : M A) (release : event) (body : A -> M B) : M B :=
  bind acquire (fun x => ((fst (body x) ++ [release])%list, snd (body x))).

(** [if c: body] as a statement. *)
Definition when (c : bool) (body : M unit) : M unit :=
  if c then body else ret tt.

End Eff.

Import Eff.

Notation "x <- m ;; k" := (bind m (fun x => k))
  (at level 61, m at next level, right associativity).
Notation "m ;; k" := (bind m (fun _ => k))
  (at level 61, right associativity).

(** [print(text, file=sys.stderr)]. *)
Definition print_err (text : string) : M unit := emit (Print stderr text).

(** [sys.argv[i]]. *)
Definition item (argv : list string) (i : nat) : M string :=
  match nth_error argv i with
  | Some s => ret s
  | None => raise (IndexError "list index out of range")
  end.

(** [int(s)] as a statement that may raise. *)
Definition int_of (w : world) (s : string) : M Z :=
  match Py.parse_int (int_max_str_digits w) s with
  | Some n => ret n
  | None => raise (ValueError "invalid literal for int() with base 10")
  end.

(** ** The three scripts *)

Module example_ping.

Definition main (argv : list string) (w : world) : M unit :=
  when (List.length argv <? 2)%nat
    (print_err "Error: No hostname provided" ;; sys_exit 1) ;;
  hostname <- item argv 1 ;;
  let cmd :=
    if String.eqb (Py.lower (platform_system w)) "windows"
    then ["ping"; "-n"; "1"; "-w"; "2000"; hostname]
    else ["ping"; "-c"; "1"; "-W"; "2"; hostname] in
  try_except
    (result <- call (SubprocessRun cmd 5) (subprocess_run w) ;;
     if returncode result =? 0 then sys_exit 0
     else print_err ("Ping to " ++ hostname ++ " failed") ;; sys_exit 1)
    (fun e =>
       match e with
       | TimeoutExpired _ =>
           print_err ("Ping to " ++ hostname ++ " timed out") ;; sys_exit 1
       | _ => print_err ("Error: " ++ exn_str e) ;; sys_exit 1
       end).

End example_ping.

Module http_check.

(** Lines 21-22: the scheme is defaulted, not validated. *)
Definition with_scheme (url : string) : string :=
  if negb (Py.startswith "http://" url || Py.startswith "https://" url)
  then "http://" ++ url
  else url.

Definition main (argv : list string) (w : world) : M unit :=
  when (List.length argv <? 2)%nat
    (print_err "Error: No URL provided" ;; sys_exit 1) ;;
  url <- item argv 1 ;;
  let url := with_scheme url in
  try_except
    (with_as (call (UrlOpen url 5) (urlopen w)) ResponseClose
       (fun response =>
          let status_code := getcode response in
          if (200 <=? status_code) && (status_code <? 400) then sys_exit 0
          else
            print_err ("HTTP check failed: status code " ++ Py.str status_code) ;;
            sys_exit 1))
    (fun e =>
       match e with
       | HTTPError code reason =>
           print_err ("HTTP error: " ++ Py.str code ++ " " ++ reason) ;; sys_exit 1
       | URLError reason =>
           print_err ("Connection error: " ++ reason) ;; sys_exit 1
       | timeout _ =>
           print_err ("Request to " ++ url ++ " timed out") ;; sys_exit 1
       | _ => print_err ("Error: " ++ exn_str e) ;; sys_exit 1
       end).

End http_check.

Module tcp_port_check.

(** Lines 24-29: the split and the conversion, with their handler. *)
Definition parse_target (w : world) (target : string) : M (string * Z) :=
  try_except
    (match Py.rsplit1 ":" target with
     | [host; port_str] => port <- int_of w port_str ;; ret (host, port)
     | _ => raise (ValueError "not enough values to unpack")
     end)
    (fun e =>
       match e with
       | ValueError _ => print_err "Error: Invalid port number" ;; sys_exit 1
       | _ => raise e
       end).

(** Lines 31-54: the socket, the connect and its handlers. *)
Definition probe (w : world) (host : string) (port : Z) : M unit :=
  call SocketNew (socket_socket w) ;;
  emit (SetTimeout 2) ;;
  try_except
    (result <- call (ConnectEx host port) (connect_ex w) ;;
     emit SockClose ;;
     if result =? 0 then sys_exit 0
     else
       print_err ("Port " ++ Py.str port ++ " on " ++ host ++ " is not reachable") ;;
       sys_exit 1)
    (fun e =>
       match e with
       | gaierror _ =>
           print_err ("Error: Could not resolve hostname " ++ host) ;; sys_exit 1
       | timeout _ =>
           print_err ("Connection to " ++ host ++ ":" ++ Py.str port ++ " timed out") ;;
           sys_exit 1
       | _ => print_err ("Error: " ++ exn_str e) ;; sys_exit 1
       end).

Definition main (argv : list string) (w : world) : M unit :=
  when (List.length argv <? 2)%nat
    (print_err "Error: No hostname provided" ;; sys_exit 1) ;;
  target <- item argv 1 ;;
  when (negb (Py.char_in ":" target))
    (print_err "Error: Invalid format. Expected hostname:port (e.g., example.com:80)" ;;
     sys_exit 1) ;;
  hp <- parse_target w target ;;
  probe w (fst hp) (snd hp).

End tcp_port_check.

(** ** Observing a run *)

Inductive probe_name : Type := ping | http | tcp.

(** The probe is chosen by the script that is started, not at run time. *)
Definition run (p : probe_name) (argv : list string) (w : world) : M unit :=
  match p with
  | ping => example_ping.main argv w
  | http => http_check.main argv w
  | tcp => tcp_port_check.main argv w
  end.

(** The status the parent process reads.  A script that runs off its end
    leaves with 0; an exception nobody handles makes the interpreter print
    a traceback and leave with 1. *)
Definition exit_status (r : M unit) : Z :=
  match snd r with
  | Normal _ => 0
  | Abrupt (SystemExit code) => code
  | Abrupt (Raised _) => 1
  end.

(** The run ended in an exception no handler took. *)
Definition crashed (r : M unit) : Prop :=
  exists e, snd r = Abrupt (Raised e).

(** All [print] calls of a trace, in order. *)
Fixpoint printed (tr : list event) : list (stream * string) :=
  match tr with
  | [] => []
  | Print f text :: tr' => (f, text) :: printed tr'
  | _ :: tr' => printed tr'
  end.

(** Socket, resolver, HTTP and child process activity. *)
Definition is_network (e : event) : bool :=
  match e with
  | Print _ _ => false
  | _ => true
  end.

Definition network_events (tr : list event) : list event := filter is_network tr.

Definition newline : string := String (ascii_of_nat 10) EmptyString.

(** The characters that reach the error stream: [print] ends each text
    with a line break. *)
Fixpoint stderr_text (tr : list event) : string :=
  match tr with
  | [] => EmptyString
  | Print stderr text :: tr' => text ++ newline ++ stderr_text tr'
  | _ :: tr' => stderr_text tr'
  end.

(** Number of line breaks in a text, hence of lines in a stream whose
    last character is a line break. *)
Fixpoint line_breaks (s : string) : nat :=
  match s with
  | EmptyString => 0
  | String c r => (if Ascii.eqb c (ascii_of_nat 10) then 1 else 0) + line_breaks r
  end.

(** [sub] occurs in [s]. *)
Definition occurs_in (sub s : string) : Prop :=
  exists before after, s = before ++ sub ++ after.

(** The texts the world can feed into a diagnostic. *)
Definition answer_texts {A} (a : answer A) : list string :=
  match a with
  | Returns _ => []
  | Raises e => [exn_str e]
  end.

Definition world_texts (w : world) : list string :=
  answer_texts (subprocess_run w) ++ answer_texts (urlopen w)
  ++ answer_texts (socket_socket w) ++ answer_texts (connect_ex w).

(** The passing branch of the script: its network call was made, the call
    returned, and what it returned passes the test the script applies to
    it (return code 0; status of the returned response in [200, 400);
    result 0). *)
Definition call_passed (p : probe_name) (tr : list event) (w : world) : Prop :=
  match p with
  | ping =>
      (exists cmd, In (SubprocessRun cmd 5) tr) /\
      exists r, subprocess_run w = Returns r /\ returncode r = 0
  | http =>
      (exists url, In (UrlOpen url 5) tr) /\
      exists r, urlopen w = Returns r /\ 200 <= getcode r < 400
  | tcp =>
      (exists host port, In (ConnectEx host port) tr) /\
      connect_ex w = Returns 0
  end.

(** The text of the diagnostic each probe prints for a missing target. *)
Definition no_target_message (p : probe_name) : string :=
  match p with
  | http => "Error: No URL provided"
  | _ => "Error: No hostname provided"
  end.

(** A run that was turned away as bad input: status 1, one diagnostic on
    the error stream that names the input error, and nothing done on the
    network. *)
Definition rejected_as_input_error (r : M unit) : Prop :=
  exit_status r = 1 /\
  (exists text, printed (fst r) = [(stderr, text)] /\
     (text = "Error: No hostname provided" \/
      text = "Error: Invalid format. Expected hostname:port (e.g., example.com:80)" \/
      text = "Error: Invalid port number")) /\
  network_events (fst r) = [].

(** *** Sample worlds *)

(** A world as CPython presents it for a port outside 0-65535: the
    socket is created and [connect_ex] raises [OverflowError]. *)
Definition world_overflow : world :=
  {| int_max_str_digits := 4300;
     platform_system := "Linux";
     subprocess_run := Returns {| returncode := 1 |};
     urlopen := Raises (URLError "[Errno 111] Connection refused");
     socket_socket := Returns tt;
     connect_ex := Raises (OtherException "connect_ex(): port must be 0-65535.") |}.

(** The server answers 304 Not Modified, which [urllib] neither follows
    nor returns: it raises [HTTPError]. *)
Definition world_not_modified : world :=
  {| int_max_str_digits := 4300;
     platform_system := "Linux";
     subprocess_run := Returns {| returncode := 0 |};
     urlopen := Raises (HTTPError 304 "Not Modified");
     socket_socket := Returns tt;
     connect_ex := Returns 0 |}.

(** Nothing listens: the connect is refused (errno 111), the child ping
    fails, the server answers 404. *)
Definition world_refused : world :=
  {| int_max_str_digits := 4300;
     platform_system := "Linux";
     subprocess_run := Returns {| returncode := 1 |};
     urlopen := Raises (HTTPError 404 "Not Found");
     socket_socket := Returns tt;
     connect_ex := Returns 111 |}.

(** The name does not resolve. *)
Definition world_unresolved : world :=
  {| int_max_str_digits := 4300;
     platform_system := "Linux";
     subprocess_run := Returns {| returncode := 2 |};
     urlopen := Raises (URLError "[Errno -2] Name or service not known");
     socket_socket := Returns tt;
     connect_ex := Raises (gaierror "[Errno -2] Name or service not known") |}.

(** The process may not create sockets. *)
Definition world_no_socket : world :=
  {| int_max_str_digits := 4300;
     platform_system := "Linux";
     subprocess_run := Returns {| returncode := 0 |};
     urlopen := Returns {| getcode := 200 |};
     socket_socket := Raises (OtherException "[Errno 13] Permission denied");
     connect_ex := Returns 0 |}.

(** Everything answers. *)
Definition world_up : world :=
  {| int_max_str_digits := 4300;
     platform_system := "Linux";
     subprocess_run := Returns {| returncode := 0 |};
     urlopen := Returns {| getcode := 200 |};
     socket_socket := Returns tt;
     connect_ex := Returns 0 |}.

(** The URLs requested during a run, in order. *)
Fixpoint requests (tr : list event) : list string :=
  match tr with
  | [] => []
  | UrlOpen url _ :: tr' => url :: requests tr'
  | _ :: tr' => requests tr'
  end.

(** The server's status [c] reached the script: [urllib] hands a status
    over either in the response it returns or in the [HTTPError] it
    raises. *)
Definition status_delivered (a : answer response) (c : Z) : Prop :=
  a = Returns {| getcode := c |} \/ exists reason, a = Raises (HTTPError c reason).

(** [s] holds no [":"]. *)
Definition colon_free (s : string) : Prop :=
  forall a b, s <> a ++ ":" ++ b.

(** No line break comes in through the arguments or the world. *)
Definition single_line_inputs (argv : list string) (w : world) : Prop :=
  Forall (fun s => line_breaks s = 0%nat) (argv ++ world_texts w).

(** A failed run: status 1 after exactly one [print], to the error
    stream, of a text that spans one line when the inputs do. *)
Definition one_diagnostic (argv : list string) (w : world) (r : M unit) : Prop :=
  snd r = Abrupt (SystemExit 1) /\
  exists text,
    printed (fst r) = [(stderr, text)] /\
    stderr_text (fst r) = text ++ newline /\
    (single_line_inputs argv w -> line_breaks text = 0%nat).

(** The interpreter converts a numeral of [digits] characters: the cap
    is off, or the numeral is within it. *)
Definition within_cap (cap digits : nat) : Prop :=
  cap = 0%nat \/ (digits <= cap)%nat.

(** *** The sentences of the specification that the scripts do not meet,
    as they are written *)

(** A port that parses but lies outside 1-65535 is turned away before
    any network activity. *)
Definition range_checked (target : string) (w : world) : Prop :=
  forall host port_str port,
    target = host ++ ":" ++ port_str -> colon_free port_str ->
    Py.parse_int (int_max_str_digits w) port_str = Some port ->
    ~ (1 <= port <= 65535) ->
    rejected_as_input_error (tcp_port_check.main ["tcp_port_check.py"; target] w).

(** The target is turned away when it has no colon, and when the host
    part is empty, the port part is empty or the port part is no number. *)
Definition host_and_port_checked (target : string) (w : world) : Prop :=
  let r := tcp_port_check.main ["tcp_port_check.py"; target] w in
  (colon_free target -> rejected_as_input_error r) /\
  (forall host port_str,
     target = host ++ ":" ++ port_str -> colon_free port_str ->
     host = "" \/ port_str = "" \/
       Py.parse_int (int_max_str_digits w) port_str = None ->
     rejected_as_input_error r).

(** The HTTP operation counts as a success when the status of the
    server's response lies in [200, 400). *)
Definition http_success (w : world) : Prop :=
  exists c, status_delivered (urlopen w) c /\ 200 <= c < 400.

(** The status is 0 or 1, and 0 exactly on success. *)
Definition exit_follows_success (argv : list string) (w : world) : Prop :=
  let r := http_check.main argv w in
  (exit_status r = 0 \/ exit_status r = 1) /\
  (exit_status r = 0 <-> http_success w).

(** Statuses in [200, 400) pass silently, statuses in [400, 600) fail
    with the status in the diagnostic. *)
Definition status_decides (argv : list string) (w : world) (c : Z) : Prop :=
  let r := http_check.main argv w in
  status_delivered (urlopen w) c ->
  (200 <= c < 400 -> exit_status r = 0 /\ printed (fst r) = []) /\
  (400 <= c < 600 ->
     exit_status r = 1 /\
     exists text, printed (fst r) = [(stderr, text)] /\ occurs_in (Py.str c) text).

(** Silence on status 0, exactly one line on the error stream otherwise. *)
Definition silent_or_one_line (r : M unit) : Prop :=
  (exit_status r = 0 -> printed (fst r) = []) /\
  (exit_status r <> 0 ->
     (forall f text, In (f, text) (printed (fst r)) -> f = stderr) /\
     line_breaks (stderr_text (fst r)) = 1%nat).

(** ** Facts about the built-ins *)

(** The built-ins on the inputs the claims name. *)
Example rsplit1_last_colon : Py.rsplit1 ":" "a:b:80" = ["a:b"; "80"].
Proof. reflexivity. Qed.

Example rsplit1_empty_host : Py.rsplit1 ":" ":80" = [""; "80"].
Proof. reflexivity. Qed.

Example parse_int_plain : Py.parse_int 4300 "99999" = Some 99999.
Proof. reflexivity. Qed.

Example parse_int_blanks_sign_underscore : Py.parse_int 4300 " +8_0 " = Some 80.
Proof. reflexivity. Qed.

Example parse_int_negative : Py.parse_int 4300 "-5" = Some (-5).
Proof. reflexivity. Qed.

Example parse_int_rejects :
  map (Py.parse_int 4300) [""; "http"; "80a"; "8__0"; "80_"; "_80"; "+ 5"; "8 0"]
  = [None; None; None; None; None; None; None; None].
Proof. reflexivity. Qed.

(** A no-break space (bytes C2 A0) is a blank, fullwidth digits (EF BC
    90 to 99) and Arabic-Indic digits (D9 A0 to A9) are digits; a minus
    sign outside ASCII, a superscript digit, a lone byte A0 (which decodes
    to nothing), an accented letter and the ASCII separator 1C are not
    read. *)
Example parse_int_no_break_space :
  Py.parse_int 4300 (Py.utf8 [194; 160] ++ "18766") = Some 18766.
Proof. reflexivity. Qed.

Example parse_int_fullwidth :
  Py.parse_int 4300 (Py.utf8 [239; 188; 152; 239; 188; 144]) = Some 80.
Proof. reflexivity. Qed.

Example parse_int_arabic_indic :
  Py.parse_int 4300 ("-" ++ Py.utf8 [217; 163; 95; 217; 160]) = Some (-30).
Proof. reflexivity. Qed.

Example parse_int_unicode_rejects :
  map (Py.parse_int 4300)
    [Py.utf8 [226; 136; 146] ++ "5"; Py.utf8 [194; 178]; Py.utf8 [160] ++ "18766";
     "8" ++ Py.utf8 [195; 169]; Py.utf8 [28] ++ "5"]
  = [None; None; None; None; None].
Proof. reflexivity. Qed.

(** The port text is read as [int] reads it: behind a no-break space
    the TCP probe finds port 18766 and connects. *)
Example tcp_port_behind_no_break_space :
  tcp_port_check.main
    ["tcp_port_check.py"; "127.0.0.1:" ++ Py.utf8 [194; 160] ++ "18766"] world_up
  = ([SocketNew; SetTimeout 2; ConnectEx "127.0.0.1" 18766; SockClose],
     Abrupt (SystemExit 0)).
Proof. reflexivity. Qed.

Example str_samples : map Py.str [0; 80; -15; 99999] = ["0"; "80"; "-15"; "99999"].
Proof. reflexivity. Qed.

Section StringFacts.

Lemma char_in_app (c : ascii) (a b : string) :
  Py.char_in c (a ++ b) = Py.char_in c a || Py.char_in c b.
Proof.
  induction a as [|d a IH]; simpl; [reflexivity|].
  destruct (Ascii.eqb d c); [reflexivity | exact IH].
Qed.

Lemma char_in_spec (c : ascii) (s : string) :
  Py.char_in c s = true <-> exists a b, s = a ++ String c b.
Proof.
  split.
  - induction s as [|d s IH]; simpl; [discriminate|].
    destruct (Ascii.eqb d c) eqn:E.
    + apply Ascii.eqb_eq in E; subst d. intros _. now exists EmptyString, s.
    + intros H. destruct (IH H) as (a & b & ->). now exists (String d a), b.
  - intros (a & b & ->). rewrite char_in_app. simpl.
    rewrite Ascii.eqb_refl. apply orb_true_r.
Qed.

Lemma split_last_none (sep : ascii) (s : string) :
  Py.split_last sep s = None <-> Py.char_in sep s = false.
Proof.
  induction s as [|c s IH]; simpl; [tauto|].
  destruct (Py.split_last sep s) as [[h t]|].
  - destruct (Ascii.eqb c sep); split; try discriminate.
    intros H. apply IH in H. discriminate.
  - destruct (Ascii.eqb c sep); split; try discriminate; tauto.
Qed.

Lemma split_last_some (sep : ascii) (s h t : string) :
  Py.split_last sep s = Some (h, t) ->
  s = h ++ String sep t /\ Py.char_in sep t = false.
Proof.
  revert h. induction s as [|c s IH]; simpl; intros h; [discriminate|].
  destruct (Py.split_last sep s) as [[h' t']|] eqn:E.
  - intros [= <- <-]. destruct (IH h' eq_refl) as [-> Ht]. now split.
  - destruct (Ascii.eqb c sep) eqn:Ec; [|discriminate].
    intros [= <- <-]. apply Ascii.eqb_eq in Ec; subst c.
    split; [reflexivity | now apply split_last_none].
Qed.

Lemma split_last_complete (sep : ascii) (h t : string) :
  Py.char_in sep t = false ->
  Py.split_last sep (h ++ String sep t) = Some (h, t).
Proof.
  intros Ht. induction h as [|c h IH]; simpl.
  - apply split_last_none in Ht. rewrite Ht, Ascii.eqb_refl. reflexivity.
  - rewrite IH. reflexivity.
Qed.

Lemma startswith_spec (p s : string) :
  Py.startswith p s = true <-> exists r, s = p ++ r.
Proof.
  revert s. induction p as [|a p IH]; intros s; simpl.
  - split; [intros _; now exists s | reflexivity].
  - destruct s as [|b s].
    + split; [discriminate | intros (r & H); discriminate].
    + destruct (Ascii.eqb a b) eqn:E.
      * apply Ascii.eqb_eq in E; subst b. rewrite IH.
        split; intros (r & H); exists r; [now rewrite H | now injection H].
      * split; [discriminate|]. intros (r & H). injection H as Hab _.
        subst b. now rewrite Ascii.eqb_refl in E.
Qed.

Lemma line_breaks_app (a b : string) :
  line_breaks (a ++ b) = (line_breaks a + line_breaks b)%nat.
Proof.
  induction a as [|c a IH]; simpl; [reflexivity|]. rewrite IH. lia.
Qed.

Lemma line_breaks_uint (d : Decimal.uint) :
  line_breaks (NilEmpty.string_of_uint d) = 0%nat.
Proof. induction d; simpl; auto. Qed.

Lemma line_breaks_str (n : Z) : line_breaks (Py.str n) = 0%nat.
Proof.
  unfold Py.str. destruct (Z.to_int n) as [d|d]; simpl.
  - destruct d; simpl; auto using line_breaks_uint.
  - destruct d; simpl; auto using line_breaks_uint.
Qed.

Lemma line_breaks_split (sep : ascii) (s h t : string) :
  Py.split_last sep s = Some (h, t) ->
  line_breaks s = 0%nat -> line_breaks h = 0%nat.
Proof.
  intros H. apply split_last_some in H as [-> _].
  rewrite line_breaks_app. lia.
Qed.

End StringFacts.

(** ** The paths through each script *)

Section TcpPaths.

Import tcp_port_check.

Variables (prog target : string) (rest : list string) (w : world).

Lemma tcp_no_colon :
  Py.char_in ":" target = false ->
  main (prog :: target :: rest) w =
    ([Print stderr "Error: Invalid format. Expected hostname:port (e.g., example.com:80)"],
     Abrupt (SystemExit 1)).
Proof. intros H. unfold main. cbn. rewrite H. reflexivity. Qed.

Lemma tcp_bad_port (host port_str : string) :
  Py.split_last ":" target = Some (host, port_str) ->
  Py.parse_int (int_max_str_digits w) port_str = None ->
  main (prog :: target :: rest) w =
    ([Print stderr "Error: Invalid port number"], Abrupt (SystemExit 1)).
Proof.
  intros Hs Hp.
  assert (Hc : Py.char_in ":" target = true).
  { destruct (Py.char_in ":" target) eqn:E; [reflexivity|].
    apply split_last_none in E. congruence. }
  unfold main, parse_target, Py.rsplit1, int_of. cbn.
  rewrite Hc, Hs, Hp. reflexivity.
Qed.

Lemma tcp_good_port (host port_str : string) (port : Z) :
  Py.split_last ":" target = Some (host, port_str) ->
  Py.parse_int (int_max_str_digits w) port_str = Some port ->
  main (prog :: target :: rest) w = probe w host port.
Proof.
  intros Hs Hp.
  assert (Hc : Py.char_in ":" target = true).
  { destruct (Py.char_in ":" target) eqn:E; [reflexivity|].
    apply split_last_none in E. congruence. }
  unfold main, parse_target, Py.rsplit1, int_of. cbn.
  rewrite Hc, Hs, Hp. cbn. destruct (probe w host port). reflexivity.
Qed.

End TcpPaths.

Section OtherPaths.

Variables (prog arg : string) (rest : list string) (w : world).

Lemma tcp_probe_paths (host : string) (port : Z) :
  tcp_port_check.probe w host port =
    match socket_socket w with
    | Raises e => ([SocketNew], Abrupt (Raised e))
    | Returns _ =>
        match connect_ex w with
        | Returns result =>
            if result =? 0
            then ([SocketNew; SetTimeout 2; ConnectEx host port; SockClose],
                  Abrupt (SystemExit 0))
            else ([SocketNew; SetTimeout 2; ConnectEx host port; SockClose;
                   Print stderr
                     ("Port " ++ Py.str port ++ " on " ++ host ++ " is not reachable")],
                  Abrupt (SystemExit 1))
        | Raises e =>
            ([SocketNew; SetTimeout 2; ConnectEx host port;
              Print stderr
                match e with
                | gaierror _ => "Error: Could not resolve hostname " ++ host
                | timeout _ =>
                    "Connection to " ++ host ++ ":" ++ Py.str port ++ " timed out"
                | _ => "Error: " ++ exn_str e
                end],
             Abrupt (SystemExit 1))
        end
    end.
Proof.
  unfold tcp_port_check.probe.
  destruct (socket_socket w) as [[]|e]; [|reflexivity].
  destruct (connect_ex w) as [r|e]; cbn.
  - destruct (r =? 0); reflexivity.
  - destruct e; reflexivity.
Qed.

Lemma http_paths :
  http_check.main (prog :: arg :: rest) w =
    let url := http_check.with_scheme arg in
    match urlopen w with
    | Returns r =>
        if (200 <=? getcode r) && (getcode r <? 400)
        then ([UrlOpen url 5; ResponseClose], Abrupt (SystemExit 0))
        else ([UrlOpen url 5;
               Print stderr ("HTTP check failed: status code " ++ Py.str (getcode r));
               ResponseClose],
              Abrupt (SystemExit 1))
    | Raises e =>
        ([UrlOpen url 5;
          Print stderr
            match e with
            | HTTPError code reason => "HTTP error: " ++ Py.str code ++ " " ++ reason
            | URLError reason => "Connection error: " ++ reason
            | timeout _ => "Request to " ++ url ++ " timed out"
            | _ => "Error: " ++ exn_str e
            end],
         Abrupt (SystemExit 1))
    end.
Proof.
  unfold http_check.main. cbn.
  destruct (urlopen w) as [[c]|e]; cbn.
  - cbv [getcode]. destruct ((200 <=? c) && (c <? 400)); reflexivity.
  - destruct e; reflexivity.
Qed.

Lemma ping_paths :
  exists cmd,
    (cmd = ["ping"; "-n"; "1"; "-w"; "2000"; arg] \/
     cmd = ["ping"; "-c"; "1"; "-W"; "2"; arg]) /\
    example_ping.main (prog :: arg :: rest) w =
      match subprocess_run w with
      | Returns r =>
          if returncode r =? 0
          then ([SubprocessRun cmd 5], Abrupt (SystemExit 0))
          else ([SubprocessRun cmd 5; Print stderr ("Ping to " ++ arg ++ " failed")],
                Abrupt (SystemExit 1))
      | Raises e =>
          ([SubprocessRun cmd 5;
            Print stderr
              match e with
              | TimeoutExpired _ => "Ping to " ++ arg ++ " timed out"
              | _ => "Error: " ++ exn_str e
              end],
           Abrupt (SystemExit 1))
      end.
Proof.
  unfold example_ping.main.
  destruct (String.eqb (Py.lower (platform_system w)) "windows");
    [exists ["ping"; "-n"; "1"; "-w"; "2000"; arg]
    |exists ["ping"; "-c"; "1"; "-W"; "2"; arg]];
    (split; [auto|]);
    destruct (subprocess_run w) as [[rc]|e]; cbn; cbv [returncode].
  1,3: destruct (rc =? 0); reflexivity.
  all: destruct e; reflexivity.
Qed.

End OtherPaths.

Lemma no_target_path (p : probe_name) (argv : list string) (w : world) :
  (List.length argv < 2)%nat ->
  run p argv w = ([Print stderr (no_target_message p)], Abrupt (SystemExit 1)).
Proof.
  intros H. destruct argv as [|prog [|target rest]]; simpl in H; try lia;
    destruct p; reflexivity.
Qed.

Lemma colon_free_char_in (s : string) :
  colon_free s <-> Py.char_in ":" s = false.
Proof.
  unfold colon_free. split.
  - intros H. destruct (Py.char_in ":" s) eqn:E; [|reflexivity].
    apply char_in_spec in E as (a & b & ->). now destruct (H a b).
  - intros H a b ->. rewrite char_in_app in H. simpl in H.
    now rewrite orb_true_r in H.
Qed.

Lemma split_at_last_colon (host port_str : string) :
  colon_free port_str ->
  Py.split_last ":" (host ++ ":" ++ port_str) = Some (host, port_str).
Proof.
  intros H. apply colon_free_char_in in H.
  now apply (split_last_complete ":" host port_str).
Qed.

(** ** The claims *)

(** C7.  Started without a target argument (an argument vector shorter
    than 2), each of the three probes prints its input-error diagnostic to
    the error stream and exits with status 1; nothing else happens, in
    particular no socket, request or child process is touched. *)
Theorem missing_target_rejected (p : probe_name) (argv : list string) (w : world) :
  (List.length argv < 2)%nat ->
  exit_status (run p argv w) = 1 /\
  fst (run p argv w) = [Print stderr (no_target_message p)] /\
  network_events (fst (run p argv w)) = [].
Proof.
  intros H. rewrite (no_target_path p argv w H). repeat split.
Qed.

Lemma missing_target_rejected_witness :
  exit_status (run tcp ["tcp_port_check.py"] world_up) = 1 /\
  fst (run tcp ["tcp_port_check.py"] world_up) = [Print stderr "Error: No hostname provided"] /\
  network_events (fst (run tcp ["tcp_port_check.py"] world_up)) = [].
Proof.
  apply (missing_target_rejected tcp ["tcp_port_check.py"] world_up). simpl. lia.
Defined.

(** X13.  Whatever the arguments and whatever the world answers, each of
    the three probes leaves with status 0 or 1, and the status is 0
    exactly when the probe made its network call, the call returned, and
    what it returned passes the script's own test; every other run leaves
    with 1. *)
Theorem exit_status_two_way (p : probe_name) (argv : list string) (w : world) :
  (exit_status (run p argv w) = 0 \/ exit_status (run p argv w) = 1) /\
  (exit_status (run p argv w) = 0 <->
   call_passed p (fst (run p argv w)) w).
Proof.
  destruct argv as [|prog [|target rest]];
    try (rewrite no_target_path by (simpl; lia); split; [now right|];
         split; [discriminate|]; destruct p; simpl; firstorder discriminate).
  destruct p; unfold run, call_passed.
  - destruct (ping_paths prog target rest w) as (cmd & _ & ->).
    destruct (subprocess_run w) as [[rc]|e]; cbv [returncode].
    + destruct (Z.eqb_spec rc 0) as [->|Hrc]; simpl.
      * split; [now left|]. split; [|reflexivity]. intros _.
        split; [exists cmd; now left | now exists {| returncode := 0 |}].
      * split; [now right|]. split; [discriminate|].
        intros [_ (r & [= <-] & Hr)]. simpl in Hr. now destruct Hrc.
    + simpl. split; [now right|]. split; [discriminate|].
      intros [_ (r & Hr & _)]. discriminate.
  - rewrite http_paths. cbv zeta.
    destruct (urlopen w) as [[c]|e]; cbv [getcode].
    + destruct ((200 <=? c) && (c <? 400)) eqn:Hc; simpl.
      * split; [now left|]. split; [|reflexivity]. intros _.
        split; [eexists; now left|]. exists {| getcode := c |}. simpl. split; [reflexivity|lia].
      * split; [now right|]. split; [discriminate|].
        intros [_ (r & [= <-] & Hr)]. simpl in Hr. lia.
    + simpl. split; [now right|]. split; [discriminate|].
      intros [_ (r & Hr & _)]. discriminate.
  - destruct (Py.char_in ":" target) eqn:Hcolon.
    2:{ rewrite tcp_no_colon by assumption. simpl. split; [now right|].
        split; [discriminate|]. intros [(h & q & [H|[]]) _]. discriminate. }
    destruct (Py.split_last ":" target) as [[host port_str]|] eqn:Hsplit.
    2:{ apply split_last_none in Hsplit. congruence. }
    destruct (Py.parse_int (int_max_str_digits w) port_str) as [port|] eqn:Hint.
    2:{ rewrite (tcp_bad_port prog target rest w host port_str) by assumption.
        simpl. split; [now right|]. split; [discriminate|].
        intros [(h & q & [H|[]]) _]. discriminate. }
    rewrite (tcp_good_port prog target rest w host port_str port) by assumption.
    rewrite tcp_probe_paths.
    destruct (socket_socket w) as [[]|e].
    2:{ simpl. split; [now right|]. split; [discriminate|].
        intros [(h & q & [H|[]]) _]. discriminate. }
    destruct (connect_ex w) as [result|e].
    + destruct (Z.eqb_spec result 0) as [->|Hres]; simpl.
      * split; [now left|]. split; [|reflexivity]. intros _.
        split; [|reflexivity]. exists host, port. simpl. tauto.
      * split; [now right|]. split; [discriminate|].
        intros [_ [= H]]. now destruct Hres.
    + simpl. split; [now right|]. split; [discriminate|].
      intros [_ H]. discriminate.
Qed.

Lemma http_requests (prog arg : string) (rest : list string) (w : world) :
  requests (fst (http_check.main (prog :: arg :: rest) w)) = [http_check.with_scheme arg].
Proof.
  rewrite http_paths. cbv zeta.
  destruct (urlopen w) as [[c]|e]; cbv [getcode];
    [destruct ((200 <=? c) && (c <? 400))|]; reflexivity.
Qed.

Lemma with_scheme_absent (arg : string) :
  (forall r, arg <> "http://" ++ r) -> (forall r, arg <> "https://" ++ r) ->
  http_check.with_scheme arg = "http://" ++ arg.
Proof.
  intros H1 H2. unfold http_check.with_scheme.
  destruct (Py.startswith "http://" arg) eqn:E1.
  { apply startswith_spec in E1 as [r Hr]. now destruct (H1 r). }
  destruct (Py.startswith "https://" arg) eqn:E2.
  { apply startswith_spec in E2 as [r Hr]. now destruct (H2 r). }
  reflexivity.
Qed.

Lemma with_scheme_present (arg : string) :
  (exists r, arg = "http://" ++ r) \/ (exists r, arg = "https://" ++ r) ->
  http_check.with_scheme arg = arg.
Proof.
  unfold http_check.with_scheme.
  intros [H|H]; apply startswith_spec in H; rewrite H; simpl;
    rewrite ?orb_true_r; reflexivity.
Qed.

(** C9.  The HTTP probe sends exactly one request.  When the argument
    begins with neither ["http://"] nor ["https://"], the URL requested is
    the argument with ["http://"] put in front; when it begins with one of
    the two, the URL requested is the argument itself. *)
Theorem http_scheme_defaulted (prog arg : string) (rest : list string) (w : world) :
  ((forall r, arg <> "http://" ++ r) /\ (forall r, arg <> "https://" ++ r) ->
   requests (fst (http_check.main (prog :: arg :: rest) w)) = ["http://" ++ arg]) /\
  ((exists r, arg = "http://" ++ r) \/ (exists r, arg = "https://" ++ r) ->
   requests (fst (http_check.main (prog :: arg :: rest) w)) = [arg]).
Proof.
  rewrite http_requests. split.
  - intros [H1 H2]. now rewrite with_scheme_absent.
  - intros H. now rewrite with_scheme_present.
Qed.

Lemma http_scheme_defaulted_witness :
  requests (fst (http_check.main ["http_check.py"; "example.com"] world_up))
    = ["http://example.com"] /\
  requests (fst (http_check.main ["http_check.py"; "https://example.com"] world_up))
    = ["https://example.com"].
Proof.
  split.
  - apply (http_scheme_defaulted "http_check.py" "example.com" [] world_up).
    split; intros r; discriminate.
  - apply (http_scheme_defaulted "http_check.py" "https://example.com" [] world_up).
    right. now exists "example.com".
Defined.

Lemma lower_length (s : string) : String.length (Py.lower s) = String.length s.
Proof. induction s; simpl; congruence. Qed.

(** A text of the length of [p] that starts a string beginning with [p]
    is [p]. *)
Lemma same_length_prefix (p s t r : string) :
  String.length s = String.length p -> s ++ t = p ++ r -> s = p.
Proof.
  revert s. induction p as [|a p IH]; intros [|b s]; simpl; try discriminate.
  - reflexivity.
  - intros [= Hl] [= -> H]. f_equal. now apply IH.
Qed.

(** C10.  The prefix test compares characters exactly.  An argument whose
    leading scheme text equals ["http://"] or ["https://"] once lowered but
    is not written in lower case is taken as having no scheme: the probe
    requests ["http://"] followed by the whole argument, so that
    ["HTTP://example.com"] is requested as ["http://HTTP://example.com"]. *)
Theorem http_scheme_case_sensitive
    (prog scheme tail : string) (rest : list string) (w : world) :
  Py.lower scheme = "http://" \/ Py.lower scheme = "https://" ->
  scheme <> Py.lower scheme ->
  requests (fst (http_check.main (prog :: (scheme ++ tail) :: rest) w))
    = ["http://" ++ scheme ++ tail].
Proof.
  intros Hlow Hneq.
  rewrite http_requests. f_equal.
  apply with_scheme_absent; intros r Hr.
  - destruct Hlow as [H|H].
    + apply Hneq. rewrite H.
      apply (same_length_prefix "http://" scheme tail r); [|exact Hr].
      rewrite <- (lower_length scheme), H. reflexivity.
    + destruct scheme as [|c1 [|c2 [|c3 [|c4 [|c5 s]]]]]; try discriminate.
      injection Hr as -> -> -> -> ->. discriminate.
  - destruct Hlow as [H|H].
    + destruct scheme as [|c1 [|c2 [|c3 [|c4 [|c5 s]]]]]; try discriminate.
      injection Hr as -> -> -> -> ->. discriminate.
    + apply Hneq. rewrite H.
      apply (same_length_prefix "https://" scheme tail r); [|exact Hr].
      rewrite <- (lower_length scheme), H. reflexivity.
Qed.

Lemma http_scheme_case_sensitive_witness :
  requests (fst (http_check.main ["http_check.py"; "HTTP://example.com"] world_up))
    = ["http://HTTP://example.com"].
Proof.
  apply (http_scheme_case_sensitive "http_check.py" "HTTP://" "example.com" [] world_up).
  - left. reflexivity.
  - discriminate.
Defined.

Lemma occurs_in_middle (before sub after : string) :
  occurs_in sub (before ++ sub ++ after).
Proof. now exists before, after. Qed.

Lemma occurs_in_end (before sub : string) : occurs_in sub (before ++ sub).
Proof.
  exists before, EmptyString. f_equal.
  induction sub as [|c s IH]; simpl; congruence.
Qed.

(** C6.  The claim asks that every status in [200, 400) passes
    silently, and the comments of the script say the same ("Consider
    200-399 as success", "HTTP error (4xx, 5xx)").  On the run below the
    server answers 304; [urllib] hands that status over by raising
    [HTTPError], the handler treats it as a failure, and the probe prints
    a diagnostic and leaves with status 1. *)
Lemma http_not_modified_fails :
  ~ status_decides ["http_check.py"; "example.com"] world_not_modified 304.
Proof.
  intros H.
  destruct H as [H _]; [right; now exists "Not Modified"|].
  destruct H as [H _]; [lia|].
  vm_compute in H. discriminate.
Qed.

(** C5.  The claim asks for status 0 exactly on success, which for the
    HTTP probe is a response status in [200, 400).  On the run below the
    server answers 304, a success by that measure, and the probe leaves
    with status 1: the status is still 0 or 1, but it no longer follows
    success. *)
Theorem http_success_exits_one :
  http_success world_not_modified /\
  run http ["http_check.py"; "example.com"] world_not_modified =
    ([UrlOpen "http://example.com" 5; Print stderr "HTTP error: 304 Not Modified"],
     Abrupt (SystemExit 1)) /\
  ~ exit_follows_success ["http_check.py"; "example.com"] world_not_modified.
Proof.
  assert (Hs : http_success world_not_modified).
  { exists 304. split; [right; now exists "Not Modified" | lia]. }
  split; [exact Hs|]. split; [reflexivity|].
  intros [_ [_ H]]. specialize (H Hs). vm_compute in H. discriminate H.
Qed.

(** X12.  A response that [urlopen] returns with a status in [200, 400)
    makes the probe leave with status 0 and print nothing.  A status in
    [400, 600), whether it comes in a returned response or in a raised
    [HTTPError], makes it leave with status 1 after one diagnostic on the
    error stream that contains the decimal status. *)
Theorem http_status_outcomes
    (prog arg : string) (rest : list string) (w : world) (c : Z) :
  status_delivered (urlopen w) c ->
  (urlopen w = Returns {| getcode := c |} -> 200 <= c < 400 ->
   exit_status (http_check.main (prog :: arg :: rest) w) = 0 /\
   printed (fst (http_check.main (prog :: arg :: rest) w)) = []) /\
  (400 <= c < 600 ->
   exit_status (http_check.main (prog :: arg :: rest) w) = 1 /\
   exists text,
     printed (fst (http_check.main (prog :: arg :: rest) w)) = [(stderr, text)] /\
     occurs_in (Py.str c) text).
Proof.
  intros Hd. rewrite http_paths. cbv zeta. split.
  - intros -> Hc. cbv [getcode].
    replace ((200 <=? c) && (c <? 400)) with true by lia. split; reflexivity.
  - intros Hc. destruct Hd as [Hd|[reason Hd]]; rewrite Hd.
    + cbv [getcode]. replace ((200 <=? c) && (c <? 400)) with false by lia.
      split; [reflexivity|]. eexists. split; [reflexivity|]. apply occurs_in_end.
    + split; [reflexivity|]. eexists. split; [reflexivity|]. apply occurs_in_middle.
Qed.

Lemma http_status_outcomes_witness :
  (exit_status (http_check.main ["http_check.py"; "example.com"] world_up) = 0 /\
   printed (fst (http_check.main ["http_check.py"; "example.com"] world_up)) = []) /\
  (exit_status (http_check.main ["http_check.py"; "example.com"] world_refused) = 1 /\
   exists text,
     printed (fst (http_check.main ["http_check.py"; "example.com"] world_refused))
       = [(stderr, text)] /\
     occurs_in (Py.str 404) text).
Proof.
  split.
  - apply (http_status_outcomes "http_check.py" "example.com" [] world_up 200).
    + left. reflexivity.
    + reflexivity.
    + lia.
  - apply (http_status_outcomes "http_check.py" "example.com" [] world_refused 404).
    + right. now exists "Not Found".
    + lia.
Defined.

Lemma parse_int_empty (n : nat) : Py.parse_int n "" = None.
Proof. reflexivity. Qed.

(** C4, as written, fails: [":80"] has an empty host part and is not
    turned away; the probe creates its socket and connects. *)
Lemma tcp_empty_host_not_rejected :
  ~ host_and_port_checked ":80" world_refused.
Proof.
  intros [_ H].
  assert (Hfree : colon_free "80") by (now apply colon_free_char_in).
  destruct (H "" "80" eq_refl Hfree (or_introl eq_refl)) as (_ & _ & Hnet).
  vm_compute in Hnet. discriminate.
Qed.

(** C4, amended.  A target without [":"] is rejected as an input error.
    A target with one is cut at its last [":"] into a host part and a port
    part, and it is rejected as an input error whenever the port part is
    empty or is not a base-10 integer.  The host part is not examined:
    whenever the port part is an integer the probe goes on to create its
    socket and, once it has one, to connect to that host and port. *)
Theorem tcp_target_parsing (prog target : string) (rest : list string) (w : world) :
  (colon_free target ->
   rejected_as_input_error (tcp_port_check.main (prog :: target :: rest) w)) /\
  (forall host port_str,
     target = host ++ ":" ++ port_str -> colon_free port_str ->
     (port_str = "" \/ Py.parse_int (int_max_str_digits w) port_str = None ->
      rejected_as_input_error (tcp_port_check.main (prog :: target :: rest) w)) /\
     (forall port,
        Py.parse_int (int_max_str_digits w) port_str = Some port ->
        hd_error (fst (tcp_port_check.main (prog :: target :: rest) w)) = Some SocketNew /\
        (socket_socket w = Returns tt ->
         In (ConnectEx host port) (fst (tcp_port_check.main (prog :: target :: rest) w))))).
Proof.
  split.
  - intros H. apply colon_free_char_in in H.
    rewrite tcp_no_colon by assumption.
    repeat split. exists "Error: Invalid format. Expected hostname:port (e.g., example.com:80)".
    split; [reflexivity | tauto].
  - intros host port_str -> Hfree.
    pose proof (split_at_last_colon host port_str Hfree) as Hsplit.
    split.
    + intros Hbad.
      assert (Hnone : Py.parse_int (int_max_str_digits w) port_str = None).
      { destruct Hbad as [->|H]; [apply parse_int_empty | exact H]. }
      rewrite (tcp_bad_port prog _ rest w host port_str Hsplit Hnone).
      repeat split. exists "Error: Invalid port number".
      split; [reflexivity | tauto].
    + intros port Hport.
      rewrite (tcp_good_port prog _ rest w host port_str port Hsplit Hport).
      rewrite tcp_probe_paths. split.
      * destruct (socket_socket w) as [[]|e]; [|reflexivity].
        destruct (connect_ex w) as [r|e]; [destruct (r =? 0)|]; reflexivity.
      * intros ->.
        destruct (connect_ex w) as [r|e]; [destruct (r =? 0)|]; simpl; tauto.
Qed.

Lemma tcp_target_parsing_witness :
  rejected_as_input_error (tcp_port_check.main ["tcp_port_check.py"; "example.com:http"] world_up)
  /\ hd_error (fst (tcp_port_check.main ["tcp_port_check.py"; ":80"] world_up)) = Some SocketNew
  /\ In (ConnectEx "" 80) (fst (tcp_port_check.main ["tcp_port_check.py"; ":80"] world_up)).
Proof.
  assert (F1 : colon_free "http") by (now apply colon_free_char_in).
  assert (F2 : colon_free "80") by (now apply colon_free_char_in).
  split.
  - apply (tcp_target_parsing "tcp_port_check.py" "example.com:http" [] world_up)
      with (host := "example.com") (port_str := "http");
      [reflexivity | exact F1 | right; reflexivity].
  - destruct (tcp_target_parsing "tcp_port_check.py" ":80" [] world_up) as [_ H].
    destruct (H "" "80" eq_refl F2) as [_ H'].
    destruct (H' 80 eq_refl) as [Hhd Hin].
    split; [exact Hhd | apply Hin; reflexivity].
Defined.

(** C1, as written, fails: ["example.com:99999"] is not turned away as bad
    input; the socket is created and [connect_ex] is called with port
    99999. *)
Lemma tcp_out_of_range_not_rejected :
  ~ range_checked "example.com:99999" world_overflow.
Proof.
  intros H.
  assert (Hfree : colon_free "99999") by (now apply colon_free_char_in).
  destruct (H "example.com" "99999" 99999 eq_refl Hfree eq_refl) as (_ & _ & Hnet).
  - lia.
  - vm_compute in Hnet. discriminate.
Qed.

(** C1, amended.  The probe has no range check of its own.  With a port
    part that parses as an integer outside 1-65535 it creates its socket
    and, once it has one, sets the 2 second timeout and calls [connect_ex]
    with the host and that port, as for any other port; the run then
    leaves with status 1 and one diagnostic on the error stream unless
    [connect_ex] returns 0. *)
Theorem tcp_out_of_range_port
    (prog host port_str : string) (rest : list string) (w : world) (port : Z) :
  colon_free port_str ->
  Py.parse_int (int_max_str_digits w) port_str = Some port ->
  ~ (1 <= port <= 65535) ->
  hd_error (fst (tcp_port_check.main (prog :: (host ++ ":" ++ port_str) :: rest) w))
    = Some SocketNew /\
  (socket_socket w = Returns tt ->
   (exists tail,
      fst (tcp_port_check.main (prog :: (host ++ ":" ++ port_str) :: rest) w)
        = SocketNew :: SetTimeout 2 :: ConnectEx host port :: tail) /\
   (connect_ex w <> Returns 0 ->
    exit_status (tcp_port_check.main (prog :: (host ++ ":" ++ port_str) :: rest) w) = 1 /\
    exists text,
      printed (fst (tcp_port_check.main (prog :: (host ++ ":" ++ port_str) :: rest) w))
        = [(stderr, text)])).
Proof.
  intros Hfree Hport _.
  pose proof (split_at_last_colon host port_str Hfree) as Hsplit.
  rewrite (tcp_good_port prog _ rest w host port_str port Hsplit Hport).
  rewrite tcp_probe_paths. split.
  - destruct (socket_socket w) as [[]|e]; [|reflexivity].
    destruct (connect_ex w) as [r|e]; [destruct (r =? 0)|]; reflexivity.
  - intros ->. destruct (connect_ex w) as [r|e].
    + destruct (Z.eqb_spec r 0) as [->|Hr]; (split; [eexists; reflexivity|]).
      * intros H. now destruct H.
      * intros _. split; [reflexivity|]. eexists. reflexivity.
    + split; [eexists; reflexivity|]. intros _.
      split; [reflexivity|]. eexists. reflexivity.
Qed.

Lemma tcp_out_of_range_port_witness :
  hd_error (fst (tcp_port_check.main ["tcp_port_check.py"; "example.com:99999"] world_overflow))
    = Some SocketNew /\
  exit_status (tcp_port_check.main ["tcp_port_check.py"; "example.com:99999"] world_overflow) = 1
  /\ In (ConnectEx "example.com" 99999)
       (fst (tcp_port_check.main ["tcp_port_check.py"; "example.com:99999"] world_overflow)).
Proof.
  assert (Hfree : colon_free "99999") by (now apply colon_free_char_in).
  assert (Hrange : ~ (1 <= 99999 <= 65535)) by lia.
  destruct (tcp_out_of_range_port "tcp_port_check.py" "example.com" "99999" []
              world_overflow 99999 Hfree eq_refl Hrange) as [Hhd H].
  destruct (H eq_refl) as [[tail Htr] Hex].
  split; [exact Hhd|]. split.
  - apply Hex. discriminate.
  - change (fst (tcp_port_check.main
                   ["tcp_port_check.py"; "example.com:99999"] world_overflow)
            = SocketNew :: SetTimeout 2 :: ConnectEx "example.com" 99999 :: tail) in Htr.
    rewrite Htr. simpl. tauto.
Defined.

(** ** The shape of every run *)

Ltac line_count :=
  repeat (simpl; rewrite ?line_breaks_app, ?line_breaks_str); simpl; try lia.

(** Every run is silent with status 0, or fails with one diagnostic, or
    is the TCP probe failing to create its socket. *)
Lemma run_shape (p : probe_name) (argv : list string) (w : world) :
  (snd (run p argv w) = Abrupt (SystemExit 0) /\ printed (fst (run p argv w)) = []) \/
  one_diagnostic argv w (run p argv w) \/
  (p = tcp /\ exists e,
     socket_socket w = Raises e /\ run p argv w = ([SocketNew], Abrupt (Raised e))).
Proof.
  unfold one_diagnostic, single_line_inputs, world_texts, answer_texts.
  destruct argv as [|prog [|target rest]].
  1,2: right; left; rewrite no_target_path by (simpl; lia);
    split; [reflexivity|]; eexists; split; [reflexivity|];
    split; [reflexivity|]; intros _; destruct p; reflexivity.
  assert (Harg : forall l, Forall (fun s => line_breaks s = 0%nat)
                             ((prog :: target :: rest) ++ l) ->
                           line_breaks target = 0%nat).
  { intros l H. inversion H as [|? ? _ H']. now inversion H'. }
  destruct p; unfold run.
  - destruct (ping_paths prog target rest w) as (cmd & _ & ->).
    destruct (subprocess_run w) as [[rc]|e]; cbv [returncode].
    + destruct (rc =? 0); [left; split; reflexivity|].
      right; left. split; [reflexivity|]. eexists. split; [reflexivity|].
      split; [reflexivity|]. intros H. apply Harg in H. line_count.
    + right; left. split; [reflexivity|]. eexists. split; [reflexivity|].
      split; [reflexivity|]. intros H. pose proof (Harg _ H) as Ht.
      apply Forall_app in H as [_ H]. inversion H as [|? ? He _].
      destruct e; simpl in He; revert He; line_count.
  - rewrite http_paths. cbv zeta.
    assert (Hurl : line_breaks target = 0%nat ->
                   line_breaks (http_check.with_scheme target) = 0%nat).
    { unfold http_check.with_scheme.
      destruct (negb _); [|tauto]. intros H. line_count. }
    destruct (urlopen w) as [[c]|e]; cbv [getcode].
    + destruct ((200 <=? c) && (c <? 400)); [left; split; reflexivity|].
      right; left. split; [reflexivity|]. eexists. split; [reflexivity|].
      split; [reflexivity|]. intros _. line_count.
    + right; left. split; [reflexivity|]. eexists. split; [reflexivity|].
      split; [reflexivity|]. intros H. pose proof (Hurl (Harg _ H)) as Ht.
      apply Forall_app in H as [_ H]. apply Forall_app in H as [_ H].
      apply Forall_app in H as [H _]. inversion H as [|? ? He _].
      destruct e; simpl in He; revert He; line_count.
  - destruct (Py.char_in ":" target) eqn:Hcolon.
    2:{ right; left. rewrite tcp_no_colon by assumption.
        split; [reflexivity|]. eexists. split; [reflexivity|].
        split; [reflexivity|]. intros _. reflexivity. }
    destruct (Py.split_last ":" target) as [[host port_str]|] eqn:Hsplit.
    2:{ apply split_last_none in Hsplit. congruence. }
    destruct (Py.parse_int (int_max_str_digits w) port_str) as [port|] eqn:Hint.
    2:{ right; left.
        rewrite (tcp_bad_port prog target rest w host port_str) by assumption.
        split; [reflexivity|]. eexists. split; [reflexivity|].
        split; [reflexivity|]. intros _. reflexivity. }
    rewrite (tcp_good_port prog target rest w host port_str port) by assumption.
    rewrite tcp_probe_paths.
    destruct (socket_socket w) as [[]|e].
    2:{ right; right. split; [reflexivity|]. now exists e. }
    destruct (connect_ex w) as [result|e].
    + destruct (result =? 0); [left; split; reflexivity|].
      right; left. split; [reflexivity|]. eexists. split; [reflexivity|].
      split; [reflexivity|]. intros H. apply Harg in H.
      apply (line_breaks_split _ _ _ _ Hsplit) in H. line_count.
    + right; left. split; [reflexivity|]. eexists. split; [reflexivity|].
      split; [reflexivity|]. intros H. pose proof (Harg _ H) as Ht.
      apply (line_breaks_split _ _ _ _ Hsplit) in Ht.
      apply Forall_app in H as [_ H]. apply Forall_app in H as [_ H].
      apply Forall_app in H as [_ H]. inversion H as [|? ? He _].
      destruct e; simpl in He; revert He; line_count.
Qed.

(** C8, as written, fails: a host name holding a line break makes the
    diagnostic of the ping probe span two lines. *)
Lemma ping_diagnostic_two_lines :
  ~ silent_or_one_line
      (run ping ["example_ping.py"; "a" ++ newline ++ "b"] world_refused).
Proof.
  intros [_ H].
  destruct H as [_ H]; [vm_compute; discriminate|].
  vm_compute in H. discriminate.
Qed.

(** C8, amended.  A probe that leaves through its own exit call with
    status 0 has printed nothing, on any stream.  One that leaves with
    another status has printed exactly once, to the error stream, the
    text followed by a line break; that is exactly one line whenever no
    argument and no error text handed in by the world holds a line
    break. *)
Theorem one_diagnostic_per_failed_run
    (p : probe_name) (argv : list string) (w : world) (code : Z) :
  snd (run p argv w) = Abrupt (SystemExit code) ->
  (code = 0 -> printed (fst (run p argv w)) = []) /\
  (code <> 0 ->
   exists text,
     printed (fst (run p argv w)) = [(stderr, text)] /\
     stderr_text (fst (run p argv w)) = text ++ newline /\
     (single_line_inputs argv w ->
      line_breaks (stderr_text (fst (run p argv w))) = 1%nat)).
Proof.
  intros Hexit.
  destruct (run_shape p argv w) as [[H0 Hsilent]|[[H1 (text & Hp & Hs & Hl)]|(_ & e & _ & Hr)]].
  - rewrite H0 in Hexit. injection Hexit as <-. split; [tauto|]. now intros [].
  - rewrite H1 in Hexit. injection Hexit as <-. split; [discriminate|].
    intros _. exists text. split; [exact Hp|]. split; [exact Hs|].
    intros Hin. rewrite Hs, line_breaks_app, (Hl Hin). reflexivity.
  - rewrite Hr in Hexit. discriminate.
Qed.

Lemma one_diagnostic_per_failed_run_witness :
  line_breaks (stderr_text (fst (run ping ["example_ping.py"; "example.com"] world_refused)))
    = 1%nat.
Proof.
  destruct (one_diagnostic_per_failed_run ping ["example_ping.py"; "example.com"]
              world_refused 1 eq_refl) as [_ H].
  destruct H as (text & _ & _ & Hline); [discriminate|].
  apply Hline. unfold single_line_inputs. repeat constructor.
Defined.

(** The socket is closed exactly on the runs where [connect_ex] returns. *)
Lemma tcp_close_only_after_return (w : world) (host : string) (port : Z) :
  socket_socket w = Returns tt ->
  (In SockClose (fst (tcp_port_check.probe w host port)) <->
   exists result, connect_ex w = Returns result).
Proof.
  intros Hs. rewrite tcp_probe_paths, Hs.
  destruct (connect_ex w) as [r|e].
  - split; [intros _; now exists r|]. intros _.
    destruct (r =? 0); simpl; tauto.
  - split; [|intros [r Hr]; discriminate Hr].
    simpl. intros [H|[H|[H|[H|[]]]]]; discriminate H.
Qed.

(** The ping and HTTP probes hand every exception to a handler; only the
    socket creation of the TCP probe sits outside a [try]. *)
Lemma crash_only_at_socket_creation (p : probe_name) (argv : list string) (w : world) :
  crashed (run p argv w) ->
  p = tcp /\ exists e, socket_socket w = Raises e /\ fst (run p argv w) = [SocketNew].
Proof.
  intros [e He].
  destruct (run_shape p argv w) as [[H _]|[[H _]|(Hp & e' & Hs & Hr)]];
    try (rewrite H in He; discriminate He).
  split; [exact Hp|]. exists e'. now rewrite Hr.
Qed.

(** C2.  The claim asks for the socket to be closed on every way out of
    the TCP probe.  On the run below the host does not resolve,
    [connect_ex] raises [gaierror], and the probe prints its diagnostic
    and leaves with status 1 without ever calling [close]: the call sits
    after [connect_ex] inside the [try] and is skipped by every
    exception. *)
Theorem tcp_socket_left_open_on_exception :
  run tcp ["tcp_port_check.py"; "no-such-host-xyz.invalid:80"] world_unresolved =
    ([SocketNew; SetTimeout 2; ConnectEx "no-such-host-xyz.invalid" 80;
      Print stderr "Error: Could not resolve hostname no-such-host-xyz.invalid"],
     Abrupt (SystemExit 1)) /\
  ~ In SockClose
      (fst (run tcp ["tcp_port_check.py"; "no-such-host-xyz.invalid:80"] world_unresolved)).
Proof.
  split; [reflexivity|].
  simpl. intros [H|[H|[H|[H|[]]]]]; discriminate H.
Qed.

(** C3.  The claim asks that no exception leaves a probe unhandled.  On
    the run below the TCP probe is refused its socket;
    [socket.socket] is called before the [try] begins, so the
    [OSError] reaches no handler: the run ends in the raised exception,
    with nothing printed by the script and no classified exit. *)
Theorem tcp_socket_error_unhandled :
  run tcp ["tcp_port_check.py"; "example.com:80"] world_no_socket =
    ([SocketNew], Abrupt (Raised (OtherException "[Errno 13] Permission denied"))) /\
  crashed (run tcp ["tcp_port_check.py"; "example.com:80"] world_no_socket) /\
  printed (fst (run tcp ["tcp_port_check.py"; "example.com:80"] world_no_socket)) = [].
Proof.
  split; [reflexivity|]. split; [|reflexivity].
  now exists (OtherException "[Errno 13] Permission denied").
Qed.

(** ** Further properties of the scripts *)

(** X1.  Only [sys.argv[1]] is read: the name the script was started
    under and any argument after the target change nothing in the run of
    any of the three probes. *)
Theorem extra_arguments_ignored
    (p : probe_name) (prog prog' target : string) (rest rest' : list string) (w : world) :
  run p (prog :: target :: rest) w = run p (prog' :: target :: rest') w.
Proof. destruct p; reflexivity. Qed.



Lemma with_scheme_has_scheme (arg : string) :
  (exists r, http_check.with_scheme arg = "http://" ++ r) \/
  (exists r, http_check.with_scheme arg = "https://" ++ r).
Proof.
  unfold http_check.with_scheme.
  destruct (Py.startswith "http://" arg) eqn:E1; cbn [orb negb].
  - left. apply startswith_spec in E1. exact E1.
  - destruct (Py.startswith "https://" arg) eqn:E2; cbn [orb negb].
    + right. apply startswith_spec in E2. exact E2.
    + left. now exists arg.
Qed.

(** X3.  Whatever the arguments, every URL the HTTP probe requests begins
    with ["http://"] or ["https://"]: the scheme is settled before the
    request is made. *)
Theorem http_request_has_scheme (argv : list string) (w : world) (url : string) :
  In url (requests (fst (http_check.main argv w))) ->
  (exists r, url = "http://" ++ r) \/ (exists r, url = "https://" ++ r).
Proof.
  destruct argv as [|prog [|arg rest]]; try (simpl; tauto).
  rewrite http_requests. intros [<-|[]]. apply with_scheme_has_scheme.
Qed.

Lemma http_request_has_scheme_witness :
  (exists r, "http://example.com" = "http://" ++ r) \/
  (exists r, "http://example.com" = "https://" ++ r).
Proof.
  apply (http_request_has_scheme ["http_check.py"; "example.com"] world_up).
  simpl. left. reflexivity.
Defined.

(** X4.  Defaulting the scheme is idempotent: a URL that went through it
    is left alone by a second pass, so starting the probe on the URL it
    requested asks for that same URL again. *)
Theorem http_scheme_idempotent (prog arg : string) (rest : list string) (w : world) :
  http_check.with_scheme (http_check.with_scheme arg) = http_check.with_scheme arg /\
  requests (fst (http_check.main (prog :: http_check.with_scheme arg :: rest) w))
    = requests (fst (http_check.main (prog :: arg :: rest) w)).
Proof.
  assert (H : http_check.with_scheme (http_check.with_scheme arg)
              = http_check.with_scheme arg)
    by (apply with_scheme_present, with_scheme_has_scheme).
  split; [exact H|]. rewrite !http_requests. now rewrite H.
Qed.



(** X6.  On every run the TCP probe touches the network in one fixed
    order and at most once each: nothing at all, or the socket creation
    alone, or socket, 2 second timeout and one connect, or those three
    followed by the close.  It never connects twice, never connects
    before the timeout is set and never closes a socket it did not
    connect. *)
Theorem tcp_network_discipline (argv : list string) (w : world) :
  network_events (fst (tcp_port_check.main argv w)) = [] \/
  network_events (fst (tcp_port_check.main argv w)) = [SocketNew] \/
  exists host port,
    network_events (fst (tcp_port_check.main argv w))
      = [SocketNew; SetTimeout 2; ConnectEx host port] \/
    network_events (fst (tcp_port_check.main argv w))
      = [SocketNew; SetTimeout 2; ConnectEx host port; SockClose].
Proof.
  destruct argv as [|prog [|target rest]]; try (left; reflexivity).
  destruct (Py.char_in ":" target) eqn:Hcolon.
  2:{ left. now rewrite tcp_no_colon. }
  destruct (Py.split_last ":" target) as [[host port_str]|] eqn:Hsplit.
  2:{ apply split_last_none in Hsplit. congruence. }
  destruct (Py.parse_int (int_max_str_digits w) port_str) as [port|] eqn:Hint.
  2:{ left. now rewrite (tcp_bad_port prog target rest w host port_str). }
  rewrite (tcp_good_port prog target rest w host port_str port) by assumption.
  rewrite tcp_probe_paths.
  destruct (socket_socket w) as [[]|e]; [|right; left; reflexivity].
  right; right. exists host, port.
  destruct (connect_ex w) as [r|e]; [destruct (r =? 0)|]; simpl; tauto.
Qed.

(** *** Decimal numerals read back *)

Ltac eval_digit :=
  repeat match goal with
  | |- context [Py.digit_value ?c] =>
      let v := eval vm_compute in (Py.digit_value c) in
      change (Py.digit_value c) with v
  | |- context [Py.is_space ?c] =>
      let v := eval vm_compute in (Py.is_space c) in
      change (Py.is_space c) with v
  end; cbv iota beta.

Lemma scan_uint_pos (d : Decimal.uint) (p : positive) (acc : Z) (n : nat) :
  acc = Z.pos p ->
  Py.scan_digits (NilEmpty.string_of_uint d) false acc n
  = Some (Z.pos (Pos.of_uint_acc d p),
          (n + String.length (NilEmpty.string_of_uint d))%nat, EmptyString).
Proof.
  revert p acc n.
  induction d; intros p acc n Hacc;
    cbn -[Z.mul Z.add Pos.mul Pos.add Py.digit_value]; eval_digit;
    try (match goal with
         | |- context [Pos.of_uint_acc d ?q] => rewrite (IHd q) by (subst acc; lia)
         end; rewrite ?Nat.add_succ_r; reflexivity).
  subst acc. repeat f_equal; lia.
Qed.

Lemma scan_uint_zero (d : Decimal.uint) (n : nat) :
  Py.scan_digits (NilEmpty.string_of_uint d) false 0 n
  = Some (Z.of_N (Pos.of_uint d),
          (n + String.length (NilEmpty.string_of_uint d))%nat, EmptyString).
Proof.
  revert n.
  induction d; intros n; cbn -[Z.mul Z.add Pos.mul Pos.add Py.digit_value]; eval_digit;
    try (match goal with
         | |- context [Pos.of_uint_acc d ?q] => rewrite (scan_uint_pos d q) by lia
         end; rewrite ?Nat.add_succ_r; reflexivity).
  - rewrite Nat.add_0_r. reflexivity.
  - rewrite IHd, Nat.add_succ_r. reflexivity.
Qed.

Lemma cap_passes (cap digits : nat) :
  within_cap cap digits ->
  ((640 <? digits) && ((0 <? cap) && (cap <? digits)))%nat = false.
Proof.
  intros [->|H]; [apply andb_false_r|].
  apply andb_false_iff. right. apply andb_false_iff. right.
  apply Nat.ltb_ge. exact H.
Qed.

Lemma long_from_string_uint (cap : nat) (d : Decimal.uint) :
  d <> Decimal.Nil ->
  within_cap cap (String.length (NilEmpty.string_of_uint d)) ->
  Py.long_from_string cap (NilEmpty.string_of_uint d) = Some (Z.of_N (Pos.of_uint d)) /\
  Py.long_from_string cap (String "-" (NilEmpty.string_of_uint d))
    = Some (- Z.of_N (Pos.of_uint d)).
Proof.
  intros Hd Hcap. apply cap_passes in Hcap.
  destruct d; [now destruct Hd| ..]; unfold Py.long_from_string;
    cbn [Py.lstrip NilEmpty.string_of_uint]; eval_digit;
    cbn [Py.scan_digits]; eval_digit;
    cbn [Py.scan_digits Ascii.eqb Bool.eqb]; eval_digit;
    simpl (0 * 10 + _);
    cbn [String.length NilEmpty.string_of_uint] in Hcap.
  1: rewrite scan_uint_zero.
  2-10: match goal with
        | |- context [Py.scan_digits _ false (Z.pos ?k) 1] =>
            rewrite (scan_uint_pos d k (Z.pos k) 1 eq_refl)
        end.
  all: cbn [Nat.add Nat.eqb Py.all_space negb Pos.of_uint Z.of_N]; rewrite Hcap;
    split; f_equal; lia.
Qed.

Lemma is_ascii_uint (d : Decimal.uint) : Py.is_ascii (NilEmpty.string_of_uint d) = true.
Proof. induction d; simpl; auto. Qed.

Lemma to_uint_nonnil (p : positive) : Pos.to_uint p <> Decimal.Nil.
Proof.
  intros H. pose proof (DecimalPos.Unsigned.of_to p) as E.
  rewrite H in E. discriminate E.
Qed.

Lemma parse_int_str (cap : nat) (n : Z) :
  within_cap cap (String.length (Py.str n)) ->
  Py.parse_int cap (Py.str n) = Some n.
Proof.
  intros Hcap. unfold Py.parse_int, Py.str in *.
  destruct n as [|p|p]; cbn [Z.to_int NilZero.string_of_int] in *.
  - destruct Hcap as [->|H]; reflexivity.
  - pose proof (to_uint_nonnil p) as Hn.
    assert (E : NilZero.string_of_uint (Pos.to_uint p) = NilEmpty.string_of_uint (Pos.to_uint p))
      by (destruct (Pos.to_uint p); [now destruct Hn | reflexivity ..]).
    rewrite E in *. rewrite is_ascii_uint.
    destruct (long_from_string_uint cap _ Hn Hcap) as [-> _].
    now rewrite DecimalPos.Unsigned.of_to.
  - pose proof (to_uint_nonnil p) as Hn.
    assert (E : NilZero.string_of_uint (Pos.to_uint p) = NilEmpty.string_of_uint (Pos.to_uint p))
      by (destruct (Pos.to_uint p); [now destruct Hn | reflexivity ..]).
    rewrite E in *.
    assert (Hcap' : within_cap cap (String.length (NilEmpty.string_of_uint (Pos.to_uint p)))).
    { destruct Hcap as [H|H]; [now left | right]. simpl in H. lia. }
    cbn [Py.is_ascii]. rewrite is_ascii_uint.
    change ((Py.code "-" <? 128)%N && true) with true. cbv iota.
    destruct (long_from_string_uint cap _ Hn Hcap') as [_ ->].
    now rewrite DecimalPos.Unsigned.of_to.
Qed.

Lemma char_in_uint (d : Decimal.uint) : Py.char_in ":" (NilEmpty.string_of_uint d) = false.
Proof. induction d; simpl; auto. Qed.

Lemma str_colon_free (n : Z) : colon_free (Py.str n).
Proof.
  apply colon_free_char_in. unfold Py.str.
  destruct (Z.to_int n) as [d|d]; simpl; destruct d; simpl; auto using char_in_uint.
Qed.

(** X7.  Writing a target and reading it back agree: for every host text,
    colons included, and every integer port whose numeral the interpreter
    accepts, the target [host:port] makes the probe, once it has its
    socket, connect to exactly that host and that port. *)
Theorem tcp_target_round_trip
    (prog host : string) (rest : list string) (w : world) (port : Z) :
  within_cap (int_max_str_digits w) (String.length (Py.str port)) ->
  socket_socket w = Returns tt ->
  exists tail,
    fst (tcp_port_check.main (prog :: (host ++ ":" ++ Py.str port) :: rest) w)
      = SocketNew :: SetTimeout 2 :: ConnectEx host port :: tail.
Proof.
  intros Hcap Hsock.
  pose proof (split_at_last_colon host (Py.str port) (str_colon_free port)) as Hsplit.
  rewrite (tcp_good_port prog _ rest w host (Py.str port) port Hsplit
             (parse_int_str _ port Hcap)).
  rewrite tcp_probe_paths, Hsock.
  destruct (connect_ex w) as [r|e]; [destruct (r =? 0)|]; eexists; reflexivity.
Qed.

Lemma tcp_target_round_trip_witness :
  exists tail,
    fst (tcp_port_check.main ["tcp_port_check.py"; "::1:8080"] world_up)
      = SocketNew :: SetTimeout 2 :: ConnectEx "::1" 8080 :: tail.
Proof.
  apply (tcp_target_round_trip "tcp_port_check.py" "::1" [] world_up 8080).
  - right. simpl. lia.
  - reflexivity.
Defined.

(** X8.  On every run, of every probe, at most one text is printed and
    never to the standard output: either nothing is printed and the run
    does not end in [sys.exit(1)], or exactly one text goes to the error
    stream and the run ends in [sys.exit(1)]. *)
Theorem prints_once_to_stderr (p : probe_name) (argv : list string) (w : world) :
  (printed (fst (run p argv w)) = [] /\
   snd (run p argv w) <> Abrupt (SystemExit 1)) \/
  (exists text,
     printed (fst (run p argv w)) = [(stderr, text)] /\
     snd (run p argv w) = Abrupt (SystemExit 1)).
Proof.
  destruct (run_shape p argv w) as [[H0 Hp]|[[H1 (text & Hp & _)]|(_ & e & _ & Hr)]].
  - left. split; [exact Hp|]. rewrite H0. discriminate.
  - right. now exists text.
  - left. rewrite Hr. split; [reflexivity | discriminate].
Qed.

(** X9.  Every run ends abruptly: [main] never returns normally.  A run
    ends in [sys.exit] with status 0 or 1, or else it is a run of the TCP
    probe whose socket creation raised, and it ends in that exception,
    unhandled.  So the ping and HTTP probes always end in [sys.exit] with
    status 0 or 1, and so does the TCP probe whenever its socket can be
    created. *)
Theorem exits_classified (p : probe_name) (argv : list string) (w : world) :
  (forall u, snd (run p argv w) <> Normal u) /\
  ((exists code,
      snd (run p argv w) = Abrupt (SystemExit code) /\ (code = 0 \/ code = 1)) \/
   (p = tcp /\ exists e,
      socket_socket w = Raises e /\ snd (run p argv w) = Abrupt (Raised e))) /\
  (p <> tcp \/ socket_socket w = Returns tt ->
   exists code,
     snd (run p argv w) = Abrupt (SystemExit code) /\ (code = 0 \/ code = 1)).
Proof.
  destruct (run_shape p argv w) as [[H0 _]|[[H1 _]|(Hp & e & Hs & Hr)]].
  - split; [intros u; rewrite H0; discriminate|].
    split; [left|intros _]; exists 0; tauto.
  - split; [intros u; rewrite H1; discriminate|].
    split; [left|intros _]; exists 1; tauto.
  - split; [intros u; rewrite Hr; discriminate|]. split.
    + right. split; [exact Hp|]. exists e. now rewrite Hr.
    + intros [H|H]; [now destruct H | rewrite H in Hs; discriminate Hs].
Qed.

Lemma exits_classified_witness :
  exists code,
    snd (run tcp ["tcp_port_check.py"; "example.com:80"] world_unresolved)
      = Abrupt (SystemExit code) /\ (code = 0 \/ code = 1).
Proof.
  apply (exits_classified tcp ["tcp_port_check.py"; "example.com:80"] world_unresolved).
  right. reflexivity.
Defined.

(** X10.  On every run of the TCP probe the socket is closed exactly when
    the connect was made and returned, with whatever result; a connect
    that raises, and a run that never connects, close nothing. *)
Theorem tcp_close_follows_connect (argv : list string) (w : world) :
  In SockClose (fst (tcp_port_check.main argv w)) <->
  (exists host port, In (ConnectEx host port) (fst (tcp_port_check.main argv w))) /\
  (exists result, connect_ex w = Returns result).
Proof.
  assert (Hprint : forall text, ~ In SockClose [Print stderr text] /\
                     ~ (exists host port, In (ConnectEx host port) [Print stderr text])).
  { intros text. split; [intros [H|[]]; discriminate H|].
    intros (h & q & [H|[]]). discriminate H. }
  destruct argv as [|prog [|target rest]].
  1,2: split; [intros H; now apply (Hprint _) in H
              | intros [H _]; now apply (Hprint _) in H].
  destruct (Py.char_in ":" target) eqn:Hcolon.
  2:{ rewrite tcp_no_colon by assumption.
      split; [intros H; now apply (Hprint _) in H
             | intros [H _]; now apply (Hprint _) in H]. }
  destruct (Py.split_last ":" target) as [[host port_str]|] eqn:Hsplit.
  2:{ apply split_last_none in Hsplit. congruence. }
  destruct (Py.parse_int (int_max_str_digits w) port_str) as [port|] eqn:Hint.
  2:{ rewrite (tcp_bad_port prog target rest w host port_str) by assumption.
      split; [intros H; now apply (Hprint _) in H
             | intros [H _]; now apply (Hprint _) in H]. }
  rewrite (tcp_good_port prog target rest w host port_str port) by assumption.
  rewrite tcp_probe_paths.
  destruct (socket_socket w) as [[]|e].
  2:{ split; [intros [H|[]]; discriminate H|].
      intros [(h & q & [H|[]]) _]. discriminate H. }
  destruct (connect_ex w) as [r|e].
  - split; [intros _|intros _; destruct (r =? 0); simpl; tauto].
    split; [|now exists r]. exists host, port. destruct (r =? 0); simpl; tauto.
  - split; [|intros [_ [r Hr]]; discriminate Hr].
    simpl. intros [H|[H|[H|[H|[]]]]]; discriminate H.
Qed.

(** X11.  What the TCP probe connects to comes from the target and from
    nowhere else: whenever a run connects to a host and a port, the target
    is that host, a colon, and a colon-free port text that [int] reads as
    that port. *)
Theorem tcp_connect_from_target
    (prog target host : string) (rest : list string) (w : world) (port : Z) :
  In (ConnectEx host port) (fst (tcp_port_check.main (prog :: target :: rest) w)) ->
  exists port_str,
    target = host ++ ":" ++ port_str /\
    colon_free port_str /\
    Py.parse_int (int_max_str_digits w) port_str = Some port.
Proof.
  destruct (Py.char_in ":" target) eqn:Hcolon.
  2:{ rewrite tcp_no_colon by assumption. intros [H|[]]. discriminate H. }
  destruct (Py.split_last ":" target) as [[h port_str]|] eqn:Hsplit.
  2:{ apply split_last_none in Hsplit. congruence. }
  destruct (Py.parse_int (int_max_str_digits w) port_str) as [q|] eqn:Hint.
  2:{ rewrite (tcp_bad_port prog target rest w h port_str) by assumption.
      intros [H|[]]. discriminate H. }
  rewrite (tcp_good_port prog target rest w h port_str q) by assumption.
  rewrite tcp_probe_paths. intros Hin.
  assert (E : ConnectEx h q = ConnectEx host port).
  { destruct (socket_socket w) as [[]|e].
    - destruct (connect_ex w) as [r|e]; [destruct (r =? 0)|];
        simpl in Hin; intuition discriminate.
    - simpl in Hin. intuition discriminate. }
  injection E as -> ->.
  apply split_last_some in Hsplit as [-> Hfree].
  exists port_str. split; [reflexivity|]. split; [|exact Hint].
  now apply colon_free_char_in.
Qed.

Lemma tcp_connect_from_target_witness :
  exists port_str,
    "a:b:80" = "a:b" ++ ":" ++ port_str /\
    colon_free port_str /\
    Py.parse_int (int_max_str_digits world_refused) port_str = Some 80.
Proof.
  apply (tcp_connect_from_target "tcp_port_check.py" "a:b:80" "a:b" [] world_refused 80).
  simpl. tauto.
Defined.
